(** * ox_bqpipeline: query-parameter typing, table-spec resolution and
      job-configuration building (src/ox_bqpipeline/bqpipeline.py). *)

From Stdlib Require Import ZArith Bool List String Ascii Lia.
From Stdlib Require Import Floats.
Import ListNotations.

#[local] Set Warnings "-inexact-float,-register-all".
Open Scope string_scope.

(** ** Python values and exceptions *)

(** The Python values that reach [set_parameter] and the validators.
    [PyDatetime] and [PyDate] carry an opaque timestamp; [PyTuple] and
    [PyNone] stand for the values the code does not support. A [dict] is
    the list of its items, in insertion order. *)
Inductive pyval : Type :=
| PyStr (s : string)
| PyInt (n : Z)
| PyBool (b : bool)
| PyBytes (bs : list Byte.byte)
| PyDatetime (t : Z)
| PyDate (d : Z)
| PyFloat (f : float)
| PyList (l : list pyval)
| PyDict (items : list (pyval * pyval))
| PyTuple (l : list pyval)
| PyNone.

(** [type(value)] *)
Inductive pytype : Type :=
| T_str | T_int | T_bool | T_bytes | T_datetime | T_date | T_float
| T_list | T_dict | T_tuple | T_NoneType.

Scheme Equality for pytype.

Definition type_of (v : pyval) : pytype :=
  match v with
  | PyStr _ => T_str
  | PyInt _ => T_int
  | PyBool _ => T_bool
  | PyBytes _ => T_bytes
  | PyDatetime _ => T_datetime
  | PyDate _ => T_date
  | PyFloat _ => T_float
  | PyList _ => T_list
  | PyDict _ => T_dict
  | PyTuple _ => T_tuple
  | PyNone => T_NoneType
  end.

(** Python exceptions raised by the modelled code. *)
Inductive exn : Type :=
| ValueError
| TypeError
| IndexError
| AttributeError.

Inductive result (A : Type) : Type :=
| Ok (a : A)
| Err (e : exn).
Arguments Ok {A} a.
Arguments Err {A} e.

Definition bind {A B : Type} (r : result A) (k : A -> result B) : result B :=
  match r with
  | Ok a => k a
  | Err e => Err e
  end.

Notation "x <- r ;; k" := (bind r (fun x => k))
  (at level 61, r at next level, right associativity).

(** A list comprehension whose body may raise: every element is evaluated
    in order and the first exception propagates. *)
Fixpoint map_result {A B : Type} (f : A -> result B) (l : list A)
  : result (list B) :=
  match l with
  | [] => Ok []
  | a :: r => b <- f a ;; bs <- map_result f r ;; Ok (b :: bs)
  end.

(** ** Parameter kinds: [BQ_SCALAR_TYPE_MAP] and [NUMERIC_BOUNDS] *)

Inductive kind : Type :=
| STRING | INT64 | FLOAT64 | NUMERIC | BOOL | BYTES | TIMESTAMP | DATE.

(** [BQ_SCALAR_TYPE_MAP.get(t)] *)
Definition BQ_SCALAR_TYPE_MAP (t : pytype) : option kind :=
  match t with
  | T_str => Some STRING
  | T_int => Some INT64
  | T_float => Some FLOAT64
  | T_bool => Some BOOL
  | T_bytes => Some BYTES
  | T_datetime => Some TIMESTAMP
  | T_date => Some DATE
  | _ => None
  end.

(** The two Python float literals of [NUMERIC_BOUNDS], parsed as binary64
    (round to nearest) like CPython does. *)
Definition NUMERIC_BOUNDS_min : float := (-99999999999999999999999999999.999999999)%float.
Definition NUMERIC_BOUNDS_max : float := 99999999999999999999999999999.999999999%float.

(** ** Python's [<] and [>] against a float right operand *)

(** Exact comparison of an [int] with a [float], as CPython's
    [float_richcompare] does it; [None] when the float is a NaN. *)
Definition cmp_int_float (n : Z) (f : float) : option comparison :=
  match Prim2SF f with
  | S754_nan => None
  | S754_infinity s => Some (if s then Gt else Lt)
  | S754_zero _ => Some (Z.compare n 0)
  | S754_finite s m e =>
      let mz := if s then Z.neg m else Z.pos m in
      if (0 <=? e)%Z then Some (Z.compare n (mz * 2 ^ e))
      else Some (Z.compare (n * 2 ^ (- e)) mz)
  end.

Definition bool_to_Z (b : bool) : Z := if b then 1%Z else 0%Z.

(** [v < f] *)
Definition py_lt_float (v : pyval) (f : float) : result bool :=
  match v with
  | PyFloat x => Ok (x <? f)%float
  | PyInt n => Ok (match cmp_int_float n f with Some Lt => true | _ => false end)
  | PyBool b => Ok (match cmp_int_float (bool_to_Z b) f with Some Lt => true | _ => false end)
  | _ => Err TypeError
  end.

(** [v > f] *)
Definition py_gt_float (v : pyval) (f : float) : result bool :=
  match v with
  | PyFloat x => Ok (f <? x)%float
  | PyInt n => Ok (match cmp_int_float n f with Some Gt => true | _ => false end)
  | PyBool b => Ok (match cmp_int_float (bool_to_Z b) f with Some Gt => true | _ => false end)
  | _ => Err TypeError
  end.

(** [v < NUMERIC_BOUNDS['min'] or v > NUMERIC_BOUNDS['max']] (short-circuit). *)
Definition out_of_bounds (v : pyval) : result bool :=
  lo <- py_lt_float v NUMERIC_BOUNDS_min ;;
  if lo then Ok true else py_gt_float v NUMERIC_BOUNDS_max.

(** [any([... for v in value])]: the list is built in full first. *)
Definition any_out_of_bounds (value : list pyval) : result bool :=
  bs <- map_result out_of_bounds value ;; Ok (existsb (fun b => b) bs).

(** ** [set_parameter] *)

(** The query-parameter objects of the client library. [type_] is the
    result of [BQ_SCALAR_TYPE_MAP.get], which may be [None]; the
    sub-parameters of a struct are the results of [set_parameter], kept
    as options although a [None] among them makes the constructor raise. *)
Inductive param : Type :=
| ScalarQueryParameter (name : pyval) (type_ : option kind) (value : pyval)
| ArrayQueryParameter (name : pyval) (array_type : option kind) (values : list pyval)
| StructQueryParameter (name : pyval) (sub_params : list (option param)).

Definition is_float (v : pyval) : bool :=
  match v with PyFloat _ => true | _ => false end.

(** A [None] among the sub-parameters of a struct: the constructor of
    [bigquery.StructQueryParameter] reads [sub.name] of each one and raises
    [AttributeError] on [None]. *)
Definition is_none_param (o : option param) : bool :=
  match o with None => true | Some _ => false end.

(** [set_parameter(key, value)]; [Ok None] is a Python [None] return. *)
Fixpoint set_parameter (key value : pyval) {struct value} : result (option param) :=
  match value with
  | PyStr _ | PyInt _ | PyBytes _ | PyBool _ | PyDatetime _ | PyDate _ =>
      Ok (Some (ScalarQueryParameter key (BQ_SCALAR_TYPE_MAP (type_of value)) value))
  | PyFloat _ =>
      out <- out_of_bounds value ;;
      if out then Ok (Some (ScalarQueryParameter key (BQ_SCALAR_TYPE_MAP (type_of value)) value))
      else Ok (Some (ScalarQueryParameter key (Some NUMERIC) value))
  | PyList l =>
      match l with
      | [] => Err ValueError
      | v0 :: _ =>
          if negb (is_float v0) then
            Ok (Some (ArrayQueryParameter key (BQ_SCALAR_TYPE_MAP (type_of v0)) l))
          else
            any <- any_out_of_bounds l ;;
            if any then Ok (Some (ArrayQueryParameter key (BQ_SCALAR_TYPE_MAP (type_of v0)) l))
            else Ok (Some (ArrayQueryParameter key (Some NUMERIC) l))
      end
  | PyDict items =>
      subs <- (fix go (its : list (pyval * pyval)) : result (list (option param)) :=
                 match its with
                 | [] => Ok []
                 | (k, v) :: rest =>
                     p <- set_parameter k v ;; ps <- go rest ;; Ok (p :: ps)
                 end) items ;;
      if existsb is_none_param subs then Err AttributeError
      else Ok (Some (StructQueryParameter key subs))
  | PyTuple _ | PyNone => Ok None
  end.

(** ** Strings: [str.split('.')] and [str.startswith] *)

(** [s.split('.')]: always at least one part; [''.split('.') = ['']]. *)
Fixpoint py_split_dot (s : string) : list string :=
  match s with
  | EmptyString => [""]
  | String c rest =>
      let parts := py_split_dot rest in
      if Ascii.eqb c "." then "" :: parts
      else match parts with
           | p :: ps => String c p :: ps
           | [] => [String c ""]
           end
  end.

(** [s.startswith(prefix)] *)
Definition py_startswith (s pre : string) : bool := String.prefix pre s.

(** Truthiness of a Python [str]. *)
Definition str_truthy (s : string) : bool :=
  match s with EmptyString => false | _ => true end.

(** Truthiness of any value ([if query_params:]). *)
Definition py_truthy (v : pyval) : bool :=
  match v with
  | PyStr s => str_truthy s
  | PyInt n => negb (n =? 0)%Z
  | PyBool b => b
  | PyBytes bs => negb (List.length bs =? 0)%nat
  | PyDatetime _ | PyDate _ => true
  | PyFloat f => negb (f =? 0)%float
  | PyList l => negb (List.length l =? 0)%nat
  | PyDict items => negb (List.length items =? 0)%nat
  | PyTuple l => negb (List.length l =? 0)%nat
  | PyNone => false
  end.

(** ** Table references *)

Record TableReference : Type := {
  tr_project : string;
  tr_dataset_id : string;
  tr_table_id : string
}.

Record DatasetReference : Type := {
  dr_project : string;
  dr_dataset_id : string
}.

(** [tableref(project, dataset_id, table_id)] *)
Definition tableref (project dataset_id table_id : string) : TableReference :=
  {| tr_project := project; tr_dataset_id := dataset_id; tr_table_id := table_id |}.

(** [to_tableref(tablespec_str)]: [parts[0]], [parts[1]], [parts[2]] raise
    [IndexError] when there are fewer than three parts; further parts are
    ignored. *)
Definition to_tableref (tablespec_str : string) : result TableReference :=
  match py_split_dot tablespec_str with
  | p0 :: p1 :: p2 :: _ => Ok (tableref p0 p1 p2)
  | _ => Err IndexError
  end.

(** ** The pipeline object *)

(** The fields of [BQPipeline] that the modelled methods read; [bq] is the
    lazily created client, represented by the project it was created for. *)
Record BQPipeline : Type := {
  job_name : string;
  location : string;
  query_project : option string;
  default_project : option string;
  default_dataset : option string;
  json_credentials_path : option string;
  bq : option string
}.

(** [BQPipeline(job_name, default_project=..., default_dataset=...)] *)
Definition new_pipeline (name : string) (dp dd : option string) : BQPipeline :=
  {| job_name := name; location := "US"; query_project := None;
     default_project := dp; default_dataset := dd;
     json_credentials_path := None; bq := None |}.

(** The argument of [resolve_table_spec]: a [TableReference], [None] or a
    string. *)
Inductive table_arg : Type :=
| ArgRef (r : TableReference)
| ArgNone
| ArgStr (s : string).

(** The string case of [BQPipeline.resolve_table_spec(dest)]. *)
Definition resolve_table_spec_str (self : BQPipeline) (table_id : string) : string :=
  let parts := py_split_dot table_id in
  match List.length parts, default_project self, default_dataset self with
  | 2, Some dp, _ => dp ++ "." ++ table_id
  | 1, Some dp, Some dd => dp ++ "." ++ dd ++ "." ++ table_id
  | _, _, _ => table_id
  end.

(** [BQPipeline.resolve_table_spec(dest)] *)
Definition resolve_table_spec (self : BQPipeline) (dest : table_arg) : table_arg :=
  match dest with
  | ArgRef r => ArgRef r
  | ArgNone => ArgNone
  | ArgStr table_id => ArgStr (resolve_table_spec_str self table_id)
  end.

(** [BQPipeline.resolve_dataset_spec(dataset)] *)
Definition resolve_dataset_spec (self : BQPipeline) (dataset : option string)
  : option string :=
  match dataset with
  | None => None
  | Some dataset_id =>
      match List.length (py_split_dot dataset_id), default_project self with
      | 1, Some dp => Some (dp ++ "." ++ dataset_id)
      | _, _ => Some dataset_id
      end
  end.

(** ** Validation of query parameters *)

(** [set(map(type, xs))], as a duplicate-free list. *)
Definition type_set (xs : list pyval) : list pytype :=
  nodup pytype_eq_dec (map type_of xs).

Definition is_scalar_type (t : pytype) : bool :=
  match BQ_SCALAR_TYPE_MAP t with Some _ => true | None => false end.

(** [len(datatype) == 1 and datatype.issubset([str])] *)
Definition keys_are_str (items : list (pyval * pyval)) : bool :=
  let datatype := type_set (map fst items) in
  (List.length datatype =? 1)%nat && forallb (fun t => pytype_beq t T_str) datatype.

(** [BQPipeline.validate_parameter(query_parameter)] *)
Fixpoint validate_parameter (query_parameter : pyval) : bool :=
  match query_parameter with
  | PyList l =>
      let datatype := type_set l in
      (List.length datatype =? 1)%nat && forallb is_scalar_type datatype
  | PyDict items =>
      match items with
      | [] => false
      | _ =>
          keys_are_str items &&
          (fix go (its : list (pyval * pyval)) : bool :=
             match its with
             | [] => true
             | (_, v) :: rest => validate_parameter v && go rest
             end) items
      end
  | _ => is_scalar_type (type_of query_parameter)
  end.

(** [BQPipeline.validate_query_params(query_params)] *)
Definition validate_query_params (query_params : pyval) : bool :=
  match query_params with
  | PyList l => forallb validate_parameter l
  | PyDict items =>
      keys_are_str items && forallb (fun kv => validate_parameter (snd kv)) items
  | _ => false
  end.

(** [BQPipeline.set_query_params(query_params)]; [Ok None] for a falsy
    argument. After a successful validation the argument is a list or a
    dict, so the last branch is never taken. *)
Definition set_query_params (query_params : pyval)
  : result (option (list (option param))) :=
  if negb (py_truthy query_params) then Ok None
  else if negb (validate_query_params query_params) then Err ValueError
  else match query_params with
       | PyList l =>
           ps <- map_result (set_parameter PyNone) l ;; Ok (Some ps)
       | PyDict items =>
           ps <- map_result (fun kv => set_parameter (fst kv) (snd kv)) items ;;
           Ok (Some ps)
       | _ => Ok None
       end.

(** ** [BQPipeline.create_job_config] *)

Inductive CreateDisposition : Type := CREATE_IF_NEEDED | CREATE_NEVER.
Inductive WriteDisposition : Type := WRITE_TRUNCATE | WRITE_APPEND | WRITE_EMPTY.
Inductive QueryPriority : Type := BATCH | INTERACTIVE.

(** The settings passed to [bigquery.QueryJobConfig]; [query_parameters]
    is [None] when the key is not set. *)
Record QueryJobConfig : Type := {
  priority : QueryPriority;
  cfg_default_dataset : option DatasetReference;
  destination : option TableReference;
  create_disposition : CreateDisposition;
  write_disposition : WriteDisposition;
  query_parameters : option (option (list (option param)))
}.

Definition create_job_config (self : BQPipeline) (batch : bool)
    (dest : option string) (create overwrite append : bool)
    (query_params : pyval) : result QueryJobConfig :=
  let create_disp := if create then CREATE_IF_NEEDED else CREATE_NEVER in
  let write_disp :=
    if overwrite then WRITE_TRUNCATE
    else if append then WRITE_APPEND
    else WRITE_EMPTY in
  let prio := if batch then BATCH else INTERACTIVE in
  dest_tableref <-
    match dest with
    | Some d =>
        if str_truthy d && negb (py_startswith d "gs://") then
          r <- to_tableref (resolve_table_spec_str self d) ;; Ok (Some r)
        else Ok None
    | None => Ok None
    end ;;
  let data_set :=
    match default_project self, default_dataset self with
    | Some dp, Some dd => Some {| dr_project := dp; dr_dataset_id := dd |}
    | _, _ => None
    end in
  qps <-
    (if py_truthy query_params then
       ps <- set_query_params query_params ;; Ok (Some ps)
     else Ok None) ;;
  Ok {| priority := prio;
        cfg_default_dataset := data_set;
        destination := dest_tableref;
        create_disposition := create_disp;
        write_disposition := write_disp;
        query_parameters := qps |}.

(** [create_job_config()] with every argument at its default. *)
Definition create_job_config_default (self : BQPipeline) : result QueryJobConfig :=
  create_job_config self false None true true false PyNone.

(** ** [BQPipeline.run_query], up to the submission of the query job *)

(** The argument [query_details]: a path, or a tuple
    [(path, destination)] or [(path, destination, query_params)]. *)
Inductive query_details : Type :=
| QDPath (sql_path : string)
| QDTuple2 (sql_path : string) (dest : option string)
| QDTuple3 (sql_path : string) (dest : option string) (params : pyval).

(** Calls to the external services, in the order they happen. *)
Inductive event : Type :=
| EvClientCreated (project : string)
| EvQuerySubmitted (query : string) (cfg : QueryJobConfig).

(** How a call of [run_query] or [run_queries] ends: with its result, with
    an exception raised by the pipeline's own code, or with an exception
    from the service after the query was submitted (a failed or timed-out
    query job, or a failed extract job). *)
Inductive failure : Type :=
| Raised (e : exn)
| ServiceFailed.

Inductive outcome (A : Type) : Type :=
| Done (a : A)
| Failed (f : failure).

Arguments Done {A} a.
Arguments Failed {A} f.

(** The calls to the external services of a complete [run_query]: those of
    its first part, then [job.result(timeout)] with [client.get_job], and
    the GCS export in format [fmt]. *)
Inductive call : Type :=
| Call (e : event)
| CallWait
| CallExport (fmt : string).

Section RunQuery.

(** [read_sql] and the Jinja2 rendering with the caller's [kwargs] are
    outside the modelled code; [client_project] is the project of the
    credentials the client is created with. *)
Variable read_sql : string -> result string.
Variable render : string -> string.
Variable client_project : string.

(** [BQPipeline.get_client()]: creates the client on first use and fills
    [query_project] and, when unset, [default_project]. *)
Definition get_client (self : BQPipeline) : BQPipeline * list event :=
  match bq self with
  | Some _ => (self, [])
  | None =>
      ({| job_name := job_name self; location := location self;
          query_project := Some client_project;
          default_project :=
            match default_project self with
            | None => Some client_project
            | Some dp => Some dp
            end;
          default_dataset := default_dataset self;
          json_credentials_path := json_credentials_path self;
          bq := Some client_project |},
       [EvClientCreated client_project])
  end.

(** [BQPipeline.get_query_details(query_details)]: the path, the
    destination, the parameters and the GCS flag;
    [None.startswith('gs://')] raises [AttributeError]. *)
Definition get_query_details (self : BQPipeline) (qd : query_details)
  : result (string * option string * pyval * bool) :=
  let tuple sql_path dest params :=
    match dest with
    | None => Err AttributeError
    | Some d =>
        let is_gcs_dest := py_startswith d "gs://" in
        let destination :=
          if is_gcs_dest then d else resolve_table_spec_str self d in
        Ok (sql_path, Some destination, params, is_gcs_dest)
    end in
  match qd with
  | QDPath p => Ok (p, None, PyNone, false)
  | QDTuple2 p d => tuple p d PyNone
  | QDTuple3 p d params => tuple p d params
  end.

(** [BQPipeline.run_query(...)] until [client.query(...)] returns: the
    configuration submitted, the pipeline after the call and the calls made
    to the external services. *)
Definition run_query (self : BQPipeline) (qd : query_details)
    (batch create overwrite append : bool)
  : result QueryJobConfig * BQPipeline * list event :=
  match get_query_details self qd with
  | Err e => (Err e, self, [])
  | Ok (sql_path, destination, query_params, _) =>
      match read_sql sql_path with
      | Err e => (Err e, self, [])
      | Ok template_str =>
          let query := render template_str in
          let (self', evs) := get_client self in
          match create_job_config self' batch destination create overwrite
                  append query_params with
          | Err e => (Err e, self', evs)
          | Ok cfg => (Ok cfg, self', (evs ++ [EvQuerySubmitted query cfg])%list)
          end
      end
  end.

(** Whether the service lets the calls after the submission return:
    [wait_ok cfg] for [job.result(timeout)] and [client.get_job] on the
    query job, [export_ok waited fmt cfg] for the extract job started by
    [export_csv_to_gcs], [export_json_to_gcs] or [export_avro_to_gcs], on
    which [gcs_export_job_poller] waits ([waited] tells whether the query
    job was waited for, which decides [job.destination]). *)
Variable wait_ok : QueryJobConfig -> bool.
Variable export_ok : bool -> string -> QueryJobConfig -> bool.

(** The [is_gcs_dest] returned by [get_query_details]. *)
Definition qd_is_gcs_dest (self : BQPipeline) (qd : query_details) : bool :=
  match get_query_details self qd with
  | Ok (_, _, _, is_gcs_dest) => is_gcs_dest
  | Err _ => false
  end.

(** The [if]/[elif] chain on [gcs_export_format]: the export run, if any. *)
Definition export_format_of (gcs_export_format : string) : option string :=
  if String.eqb gcs_export_format "CSV" then Some "CSV"
  else if String.eqb gcs_export_format "JSON" then Some "JSON"
  else if String.eqb gcs_export_format "AVRO" then Some "AVRO"
  else None.

(** [BQPipeline.run_query(query_details, batch, wait, create, overwrite,
    append, gcs_export_format=...)] to its end: [run_query] above, then the
    wait when [wait] is set, then the export of the result when the
    destination is a [gs://] path and the format is one of the three. *)
Definition run_query_full (self : BQPipeline) (qd : query_details)
    (batch wait create overwrite append : bool) (gcs_export_format : string)
  : outcome QueryJobConfig * BQPipeline * list call :=
  match run_query self qd batch create overwrite append with
  | (Err e, self', evs) => (Failed (Raised e), self', map Call evs)
  | (Ok job, self', evs) =>
      let calls := map Call evs in
      if wait && negb (wait_ok job) then
        (Failed ServiceFailed, self', (calls ++ [CallWait])%list)
      else
        let calls := if wait then (calls ++ [CallWait])%list else calls in
        if qd_is_gcs_dest self qd then
          match export_format_of gcs_export_format with
          | Some fmt =>
              (if export_ok wait fmt job then Done job else Failed ServiceFailed,
               self', (calls ++ [CallExport fmt])%list)
          | None => (Done job, self', calls)
          end
        else (Done job, self', calls)
  end.


End RunQuery.

(** Kinds of calls to the external services. *)
Definition is_client_created (e : event) : bool :=
  match e with EvClientCreated _ => true | _ => false end.

Definition is_query_submitted (e : event) : bool :=
  match e with EvQuerySubmitted _ _ => true | _ => false end.

Definition call_is_client_created (c : call) : bool :=
  match c with Call e => is_client_created e | _ => false end.

Definition call_is_query_submitted (c : call) : bool :=
  match c with Call e => is_query_submitted e | _ => false end.

(** ** Copying, deleting and creating *)

(** [create_copy_job_config(overwrite)]: the write disposition of the
    [CopyJobConfig]. *)
Definition create_copy_job_config (overwrite : bool) : WriteDisposition :=
  if overwrite then WRITE_TRUNCATE else WRITE_EMPTY.

Section Tables.

Variable client_project : string.

(** [BQPipeline.copy_table(src, dest, wait=False, overwrite)]: [src] and
    [dest] are resolved before [get_client()] is called; the result is the
    pipeline after the call, the calls of [get_client] and the arguments
    of [client.copy_table]. *)
Definition copy_table (self : BQPipeline) (src dest : table_arg) (overwrite : bool)
  : BQPipeline * list event * (table_arg * table_arg * WriteDisposition) :=
  let src := resolve_table_spec self src in
  let dest := resolve_table_spec self dest in
  let (self', evs) := get_client client_project self in
  (self', evs, (src, dest, create_copy_job_config overwrite)).

(** [BQPipeline.delete_table(table)]: the table is resolved before
    [get_client()] is called; the result is the pipeline after the call,
    the calls of [get_client] and the argument of [client.delete_table]. *)
Definition delete_table (self : BQPipeline) (table : table_arg)
  : BQPipeline * list event * table_arg :=
  let table := resolve_table_spec self table in
  let (self', evs) := get_client client_project self in
  (self', evs, table).

(** [BQPipeline.delete_tables(tables)] when every [client.delete_table]
    call returns: [delete_table] on each element in turn, with the
    arguments of the [client.delete_table] calls in order. *)
Fixpoint delete_tables (self : BQPipeline) (tables : list table_arg)
  : BQPipeline * list event * list table_arg :=
  match tables with
  | [] => (self, [], [])
  | table :: rest =>
      let '(self', evs, t) := delete_table self table in
      let '(self'', evs', ts) := delete_tables self' rest in
      (self'', (evs ++ evs')%list, t :: ts)
  end.

End Tables.

(** [BQPipeline.create_dataset(dataset)]: reads [self.bq] without
    [get_client()], so a pipeline whose client has not been created raises
    [AttributeError] ([None] has no [create_dataset]); otherwise the
    argument of [bq.create_dataset]. *)
Definition create_dataset (self : BQPipeline) (dataset : option string)
  : result (option string) :=
  match bq self with
  | None => Err AttributeError
  | Some _ => Ok (resolve_dataset_spec self dataset)
  end.

(** The [name] of a query-parameter object. *)
Definition param_name (p : param) : pyval :=
  match p with
  | ScalarQueryParameter n _ _ | ArrayQueryParameter n _ _
  | StructQueryParameter n _ => n
  end.

(** ** The NUMERIC range in the words of the spec *)

(** [math.isnan(f)] *)
Definition float_isnan (f : float) : bool :=
  match Prim2SF f with S754_nan => true | _ => false end.

(** The exact values of the two bounds (both are integers). *)
Definition NUMERIC_MIN_Z : Z := (-99999999999999991433150857216)%Z.
Definition NUMERIC_MAX_Z : Z := 99999999999999991433150857216%Z.

(** A number lies within the bounds: [min <= v <= max], both inclusive. *)
Definition within_bounds (v : pyval) : bool :=
  match v with
  | PyFloat f => (NUMERIC_BOUNDS_min <=? f)%float && (f <=? NUMERIC_BOUNDS_max)%float
  | PyInt n => (NUMERIC_MIN_Z <=? n)%Z && (n <=? NUMERIC_MAX_Z)%Z
  | PyBool b => (NUMERIC_MIN_Z <=? bool_to_Z b)%Z && (bool_to_Z b <=? NUMERIC_MAX_Z)%Z
  | _ => false
  end.

(** A number lies outside the bounds: [v < min] or [v > max]. *)
Definition outside_bounds (v : pyval) : bool :=
  match v with
  | PyFloat f => (f <? NUMERIC_BOUNDS_min)%float || (NUMERIC_BOUNDS_max <? f)%float
  | PyInt n => (n <? NUMERIC_MIN_Z)%Z || (NUMERIC_MAX_Z <? n)%Z
  | PyBool b => (bool_to_Z b <? NUMERIC_MIN_Z)%Z || (NUMERIC_MAX_Z <? bool_to_Z b)%Z
  | _ => false
  end.

(** A Python number ([float], [int] or [bool]) other than a NaN. *)
Definition is_number (v : pyval) : bool :=
  match v with PyFloat _ | PyInt _ | PyBool _ => true | _ => false end.

Definition is_number_not_nan (v : pyval) : bool :=
  match v with PyFloat f => negb (float_isnan f) | PyInt _ | PyBool _ => true | _ => false end.

(** The values [set_parameter] has a branch for: the scalar types, floats,
    lists and dicts. *)
Definition handled_by_set_parameter (v : pyval) : bool :=
  match v with
  | PyStr _ | PyInt _ | PyBool _ | PyBytes _ | PyDatetime _ | PyDate _
  | PyFloat _ | PyList _ | PyDict _ => true
  | PyTuple _ | PyNone => false
  end.

(** The destination step of [create_job_config] is taken. *)
Definition dest_is_table (dest : string) : bool :=
  str_truthy dest && negb (py_startswith dest "gs://").

(** The defaults do not let [resolve_table_spec] complete the spec [s]. *)
Definition left_unresolved (self : BQPipeline) (s : string) : Prop :=
  let n := List.length (py_split_dot s) in
  (3 <= n)%nat \/
  (n = 2 /\ default_project self = None) \/
  (n = 1 /\ (default_project self = None \/ default_dataset self = None)).

(** * Properties *)

(** ** Binary64 comparisons *)

Lemma SFcompare_swap (x y : spec_float) :
  SFcompare y x = option_map CompOpp (SFcompare x y).
Proof.
  destruct x as [sx | sx | | sx mx ex], y as [sy | sy | | sy my ey];
    try destruct sx; try destruct sy; simpl; try reflexivity;
  pose proof (Pos.compare_cont_antisym mx my Eq) as H; simpl in H;
  rewrite <- H; rewrite (Z.compare_antisym ex ey);
  destruct (ex ?= ey)%Z, (PosDef.Pos.compare_cont Eq mx my); reflexivity.
Qed.

Lemma float_leb_ltb_false (x y : float) :
  (x <=? y)%float = true -> (y <? x)%float = false.
Proof.
  rewrite leb_spec, ltb_spec. unfold SFleb, SFltb.
  rewrite (SFcompare_swap (Prim2SF x) (Prim2SF y)).
  destruct (SFcompare (Prim2SF x) (Prim2SF y)) as [[] |]; simpl; intro H;
    first [reflexivity | discriminate H].
Qed.

Lemma SFcompare_not_nan (x y : float) :
  float_isnan x = false -> float_isnan y = false ->
  exists c, SFcompare (Prim2SF x) (Prim2SF y) = Some c.
Proof.
  unfold float_isnan.
  destruct (Prim2SF x), (Prim2SF y); try discriminate; intros _ _;
    eexists; reflexivity.
Qed.

Lemma float_ltb_negb_leb (x y : float) :
  float_isnan x = false -> float_isnan y = false ->
  (y <? x)%float = negb (x <=? y)%float.
Proof.
  intros Hx Hy. destruct (SFcompare_not_nan x y Hx Hy) as [c Hc].
  rewrite leb_spec, ltb_spec. unfold SFleb, SFltb.
  rewrite (SFcompare_swap (Prim2SF x) (Prim2SF y)), Hc.
  destruct c; reflexivity.
Qed.

Lemma NUMERIC_BOUNDS_max_SF :
  Prim2SF NUMERIC_BOUNDS_max = S754_finite false 5684341886080801 44.
Proof. vm_compute. reflexivity. Qed.

Lemma NUMERIC_BOUNDS_min_SF :
  Prim2SF NUMERIC_BOUNDS_min = S754_finite true 5684341886080801 44.
Proof. vm_compute. reflexivity. Qed.

Lemma NUMERIC_BOUNDS_not_nan :
  float_isnan NUMERIC_BOUNDS_min = false /\ float_isnan NUMERIC_BOUNDS_max = false.
Proof. vm_compute. split; reflexivity. Qed.

Lemma cmp_int_float_max (n : Z) :
  cmp_int_float n NUMERIC_BOUNDS_max = Some (n ?= NUMERIC_MAX_Z)%Z.
Proof. unfold cmp_int_float. rewrite NUMERIC_BOUNDS_max_SF. reflexivity. Qed.

Lemma cmp_int_float_min (n : Z) :
  cmp_int_float n NUMERIC_BOUNDS_min = Some (n ?= NUMERIC_MIN_Z)%Z.
Proof. unfold cmp_int_float. rewrite NUMERIC_BOUNDS_min_SF. reflexivity. Qed.

(** ** Python comparisons against the bounds *)

Lemma out_of_bounds_spec (v : pyval) :
  is_number v = true -> out_of_bounds v = Ok (outside_bounds v).
Proof.
  destruct v as [| n | b | | | | f | | | |]; try discriminate; intros _;
    unfold out_of_bounds, py_lt_float, py_gt_float, outside_bounds; simpl.
  - rewrite cmp_int_float_min, cmp_int_float_max. unfold Z.ltb.
    rewrite (Z.compare_antisym n NUMERIC_MAX_Z).
    destruct (n ?= NUMERIC_MIN_Z)%Z, (n ?= NUMERIC_MAX_Z)%Z; reflexivity.
  - rewrite cmp_int_float_min, cmp_int_float_max. unfold Z.ltb.
    rewrite (Z.compare_antisym (bool_to_Z b) NUMERIC_MAX_Z).
    destruct (bool_to_Z b ?= NUMERIC_MIN_Z)%Z, (bool_to_Z b ?= NUMERIC_MAX_Z)%Z;
      reflexivity.
  - destruct (f <? NUMERIC_BOUNDS_min)%float; reflexivity.
Qed.

Lemma outside_negb_within (v : pyval) :
  is_number_not_nan v = true -> outside_bounds v = negb (within_bounds v).
Proof.
  destruct v as [| n | b | | | | f | | | |]; try discriminate; simpl; intros Hv.
  - rewrite !Z.ltb_antisym, negb_andb. reflexivity.
  - rewrite !Z.ltb_antisym, negb_andb. reflexivity.
  - apply negb_true_iff in Hv. destruct NUMERIC_BOUNDS_not_nan as [Hmin Hmax].
    rewrite (float_ltb_negb_leb NUMERIC_BOUNDS_min f Hmin Hv),
      (float_ltb_negb_leb f NUMERIC_BOUNDS_max Hv Hmax), negb_andb.
    reflexivity.
Qed.

Lemma is_number_not_nan_is_number (v : pyval) :
  is_number_not_nan v = true -> is_number v = true.
Proof. destruct v; simpl; congruence. Qed.

Lemma any_out_of_bounds_spec (l : list pyval) :
  forallb is_number l = true -> any_out_of_bounds l = Ok (existsb outside_bounds l).
Proof.
  unfold any_out_of_bounds. induction l as [| v l IH]; simpl; [reflexivity |].
  intros H. apply andb_true_iff in H as [Hv Hl].
  rewrite (out_of_bounds_spec v Hv). simpl.
  destruct (map_result out_of_bounds l) as [bs |] eqn:E; simpl in *;
    [| discriminate (IH Hl)].
  injection (IH Hl) as <-. reflexivity.
Qed.

Lemma existsb_outside_forallb_within (l : list pyval) :
  forallb is_number_not_nan l = true ->
  existsb outside_bounds l = negb (forallb within_bounds l).
Proof.
  induction l as [| v l IH]; simpl; [reflexivity |].
  intros H. apply andb_true_iff in H as [Hv Hl].
  rewrite (outside_negb_within v Hv), (IH Hl), negb_andb. reflexivity.
Qed.

Lemma forallb_is_number (l : list pyval) :
  forallb is_number_not_nan l = true -> forallb is_number l = true.
Proof.
  induction l as [| v l IH]; simpl; [reflexivity |].
  intros H. apply andb_true_iff in H as [Hv Hl].
  rewrite (is_number_not_nan_is_number v Hv), (IH Hl). reflexivity.
Qed.

Lemma set_parameter_float_list (key : pyval) (f : float) (rest : list pyval) :
  set_parameter key (PyList (PyFloat f :: rest)) =
  (any <- any_out_of_bounds (PyFloat f :: rest) ;;
   if any then Ok (Some (ArrayQueryParameter key (Some FLOAT64) (PyFloat f :: rest)))
   else Ok (Some (ArrayQueryParameter key (Some NUMERIC) (PyFloat f :: rest)))).
Proof. reflexivity. Qed.

Lemma set_parameter_float (key : pyval) (f : float) :
  set_parameter key (PyFloat f) =
  Ok (Some (ScalarQueryParameter key
              (Some (if outside_bounds (PyFloat f) then FLOAT64 else NUMERIC))
              (PyFloat f))).
Proof.
  change (set_parameter key (PyFloat f)) with
    (out <- out_of_bounds (PyFloat f) ;;
     if out then Ok (Some (ScalarQueryParameter key (Some FLOAT64) (PyFloat f)))
     else Ok (Some (ScalarQueryParameter key (Some NUMERIC) (PyFloat f)))).
  rewrite out_of_bounds_spec by reflexivity.
  destruct (outside_bounds (PyFloat f)); reflexivity.
Qed.

(** ** Typing of floats, lists and unsupported values *)

(** C1 (amended): for a non-empty list of Python numbers ([float], [int]
    or [bool], none of them a NaN) whose first element is a [float],
    [set_parameter] types the list as an array of NUMERIC exactly when
    every element lies within the NUMERIC bounds, and as an array of
    FLOAT64 when some element lies outside them. *)
Theorem set_parameter_float_array_bounds (key : pyval) (f : float) (rest : list pyval) :
  forallb is_number_not_nan (PyFloat f :: rest) = true ->
  (set_parameter key (PyList (PyFloat f :: rest)) =
     Ok (Some (ArrayQueryParameter key (Some NUMERIC) (PyFloat f :: rest)))
   <-> forallb within_bounds (PyFloat f :: rest) = true) /\
  (existsb outside_bounds (PyFloat f :: rest) = true ->
   set_parameter key (PyList (PyFloat f :: rest)) =
     Ok (Some (ArrayQueryParameter key (Some FLOAT64) (PyFloat f :: rest)))).
Proof.
  intros H.
  rewrite set_parameter_float_list,
    (any_out_of_bounds_spec _ (forallb_is_number _ H)).
  cbn [bind].
  rewrite (existsb_outside_forallb_within _ H).
  destruct (forallb within_bounds (PyFloat f :: rest)); simpl.
  - split; [split; reflexivity | discriminate].
  - split; [split; discriminate | reflexivity].
Qed.

Lemma set_parameter_float_array_bounds_witness :
  set_parameter (PyStr "test") (PyList [PyFloat 1.0; PyFloat 2.01]) =
    Ok (Some (ArrayQueryParameter (PyStr "test") (Some NUMERIC)
                [PyFloat 1.0; PyFloat 2.01])) /\
  set_parameter (PyStr "test")
    (PyList [PyFloat 1.0; PyFloat 9999999999999999999999999999999.999999999]) =
    Ok (Some (ArrayQueryParameter (PyStr "test") (Some FLOAT64)
                [PyFloat 1.0; PyFloat 9999999999999999999999999999999.999999999])).
Proof.
  split.
  - apply (proj1 (set_parameter_float_array_bounds (PyStr "test") 1.0 [PyFloat 2.01]
                    ltac:(vm_compute; reflexivity))).
    vm_compute. reflexivity.
  - apply (proj2 (set_parameter_float_array_bounds (PyStr "test") 1.0
                    [PyFloat 9999999999999999999999999999999.999999999]
                    ltac:(vm_compute; reflexivity))).
    vm_compute. reflexivity.
Defined.

(** C1 (counterexample): the all-float list [[nan]] starts with a float
    and its element does not lie within the NUMERIC bounds (nor outside
    them: both comparisons with a NaN are false), yet [set_parameter]
    types it as an array of NUMERIC. *)
Lemma set_parameter_float_array_nan :
  forallb within_bounds [PyFloat nan] = false /\
  existsb outside_bounds [PyFloat nan] = false /\
  set_parameter (PyStr "test") (PyList [PyFloat nan]) =
    Ok (Some (ArrayQueryParameter (PyStr "test") (Some NUMERIC) [PyFloat nan])).
Proof. vm_compute. split; [reflexivity | split; reflexivity]. Qed.

(** C2: a float scalar within the inclusive bounds is NUMERIC (the bounds
    themselves included), one outside them is FLOAT64; [1.0009] is NUMERIC
    and [9999999999999999999999999999999.999999999] is FLOAT64. *)
Theorem set_parameter_float_scalar_bounds (key : pyval) (f : float) :
  (within_bounds (PyFloat f) = true ->
   set_parameter key (PyFloat f) =
     Ok (Some (ScalarQueryParameter key (Some NUMERIC) (PyFloat f)))) /\
  (outside_bounds (PyFloat f) = true ->
   set_parameter key (PyFloat f) =
     Ok (Some (ScalarQueryParameter key (Some FLOAT64) (PyFloat f)))) /\
  within_bounds (PyFloat NUMERIC_BOUNDS_min) = true /\
  within_bounds (PyFloat NUMERIC_BOUNDS_max) = true /\
  set_parameter key (PyFloat 1.0009) =
    Ok (Some (ScalarQueryParameter key (Some NUMERIC) (PyFloat 1.0009))) /\
  set_parameter key (PyFloat 9999999999999999999999999999999.999999999) =
    Ok (Some (ScalarQueryParameter key (Some FLOAT64)
                (PyFloat 9999999999999999999999999999999.999999999))).
Proof.
  rewrite !set_parameter_float.
  split; [| split; [| split; [| split; [| split]]]].
  - simpl. intros H. apply andb_true_iff in H as [Hmin Hmax].
    rewrite (float_leb_ltb_false _ _ Hmin), (float_leb_ltb_false _ _ Hmax).
    reflexivity.
  - intros H. rewrite H. reflexivity.
  - vm_compute. reflexivity.
  - vm_compute. reflexivity.
  - vm_compute. reflexivity.
  - vm_compute. reflexivity.
Qed.

(** C7: an empty list fails with [ValueError], [['abc']] is an array of
    STRING and [[1, 2]] an array of INT64. *)
Theorem set_parameter_lists (key : pyval) :
  set_parameter key (PyList []) = Err ValueError /\
  set_parameter key (PyList [PyStr "abc"]) =
    Ok (Some (ArrayQueryParameter key (Some STRING) [PyStr "abc"])) /\
  set_parameter key (PyList [PyInt 1; PyInt 2]) =
    Ok (Some (ArrayQueryParameter key (Some INT64) [PyInt 1; PyInt 2])).
Proof. repeat split. Qed.

(** C10: every value outside the supported scalar types, floats, lists
    and dicts (such as [None]) makes [set_parameter] return [None] without
    raising. *)
Theorem set_parameter_unsupported (key v : pyval) :
  handled_by_set_parameter v = false -> set_parameter key v = Ok None.
Proof. destruct v; simpl; congruence. Qed.

Lemma set_parameter_unsupported_witness :
  set_parameter (PyStr "test") PyNone = Ok None /\
  set_parameter PyNone (PyTuple [PyInt 1]) = Ok None.
Proof.
  split.
  - apply (set_parameter_unsupported (PyStr "test") PyNone). reflexivity.
  - apply (set_parameter_unsupported PyNone (PyTuple [PyInt 1])). reflexivity.
Defined.

(** ** Table-spec resolution *)

(** C3: with a default project [P], a 2-segment spec [s] resolves to
    [P.s]; with a default project [P] and a default dataset [D], a
    1-segment spec [s] resolves to [P.D.s]. *)
Theorem resolve_table_spec_partial (self : BQPipeline) (s : string) :
  (forall P, default_project self = Some P ->
   List.length (py_split_dot s) = 2 ->
   resolve_table_spec self (ArgStr s) = ArgStr (P ++ "." ++ s)) /\
  (forall P D, default_project self = Some P -> default_dataset self = Some D ->
   List.length (py_split_dot s) = 1 ->
   resolve_table_spec self (ArgStr s) = ArgStr (P ++ "." ++ D ++ "." ++ s)).
Proof.
  unfold resolve_table_spec, resolve_table_spec_str. split.
  - intros P HP Hn. rewrite Hn, HP. reflexivity.
  - intros P D HP HD Hn. rewrite Hn, HP, HD. reflexivity.
Qed.

Lemma resolve_table_spec_partial_witness :
  resolve_table_spec (new_pipeline "testjob" (Some "testproject") (Some "testdataset"))
    (ArgStr "testdataset.testtable") = ArgStr "testproject.testdataset.testtable" /\
  resolve_table_spec (new_pipeline "testjob" (Some "testproject") (Some "testdataset"))
    (ArgStr "testtable") = ArgStr "testproject.testdataset.testtable".
Proof.
  destruct (resolve_table_spec_partial
              (new_pipeline "testjob" (Some "testproject") (Some "testdataset"))
              "testdataset.testtable") as [H2 _].
  destruct (resolve_table_spec_partial
              (new_pipeline "testjob" (Some "testproject") (Some "testdataset"))
              "testtable") as [_ H1].
  split.
  - exact (H2 "testproject" eq_refl eq_refl).
  - exact (H1 "testproject" "testdataset" eq_refl eq_refl eq_refl).
Defined.

(** C4: a 3-segment spec resolves to itself, whatever the defaults. *)
Theorem resolve_table_spec_full (self : BQPipeline) (s : string) :
  List.length (py_split_dot s) = 3 -> resolve_table_spec self (ArgStr s) = ArgStr s.
Proof.
  unfold resolve_table_spec, resolve_table_spec_str. intros Hn. rewrite Hn.
  reflexivity.
Qed.

Lemma resolve_table_spec_full_witness :
  resolve_table_spec (new_pipeline "testjob" (Some "testproject") (Some "testdataset"))
    (ArgStr "testproject.testdataset.testtable") =
  ArgStr "testproject.testdataset.testtable".
Proof.
  apply resolve_table_spec_full. reflexivity.
Defined.

(** ** Job configuration *)

(** C5: the default configuration, and the one built with
    [batch=False, create=False, overwrite=False], on a pipeline with default
    project [testproject] and default dataset [testdataset]. *)
Theorem create_job_config_testproject (name : string) :
  let self := new_pipeline name (Some "testproject") (Some "testdataset") in
  (exists cfg, create_job_config_default self = Ok cfg /\
     destination cfg = None /\
     cfg_default_dataset cfg =
       Some {| dr_project := "testproject"; dr_dataset_id := "testdataset" |} /\
     create_disposition cfg = CREATE_IF_NEEDED /\
     write_disposition cfg = WRITE_TRUNCATE /\
     priority cfg = INTERACTIVE) /\
  (exists cfg, create_job_config self false None false false false PyNone = Ok cfg /\
     priority cfg = INTERACTIVE /\
     create_disposition cfg = CREATE_NEVER /\
     write_disposition cfg = WRITE_EMPTY).
Proof.
  split; eexists; repeat split.
Qed.

(** C6 (amended): a non-empty destination that does not begin with
    [gs://] is resolved and, when the resolved spec has at least three
    dot-separated segments, its first three segments become the
    destination table (and the build succeeds when no query parameters
    are given); with fewer segments the build raises [IndexError]. An empty
    string, a [gs://] path or an absent destination never sets the
    destination table. *)
Theorem create_job_config_destination (self : BQPipeline) (batch : bool) (d : string)
    (create overwrite append : bool) (qp : pyval) :
  (dest_is_table d = true ->
   match py_split_dot (resolve_table_spec_str self d) with
   | p0 :: p1 :: p2 :: _ =>
       (forall cfg, create_job_config self batch (Some d) create overwrite append qp = Ok cfg ->
        destination cfg = Some (tableref p0 p1 p2)) /\
       (py_truthy qp = false ->
        exists cfg, create_job_config self batch (Some d) create overwrite append qp = Ok cfg)
   | _ => create_job_config self batch (Some d) create overwrite append qp = Err IndexError
   end) /\
  (dest_is_table d = false ->
   forall cfg, create_job_config self batch (Some d) create overwrite append qp = Ok cfg ->
   destination cfg = None) /\
  (forall cfg, create_job_config self batch None create overwrite append qp = Ok cfg ->
   destination cfg = None).
Proof.
  unfold create_job_config, dest_is_table. cbv beta iota zeta.
  split; [| split].
  - intros Hd. rewrite Hd. unfold to_tableref.
    destruct (py_split_dot (resolve_table_spec_str self d)) as [| p0 [| p1 [| p2 rest]]];
      cbn [bind]; try reflexivity.
    split.
    + intros cfg. destruct (py_truthy qp); cbn [bind];
        [destruct (set_query_params qp); cbn [bind]; [| discriminate] |];
        intros H; injection H as <-; reflexivity.
    + intros Hq. rewrite Hq. eexists. reflexivity.
  - intros Hd. rewrite Hd. cbn [bind]. intros cfg.
    destruct (py_truthy qp); cbn [bind];
      [destruct (set_query_params qp); cbn [bind]; [| discriminate] |];
      intros H; injection H as <-; reflexivity.
  - cbn [bind]. intros cfg.
    destruct (py_truthy qp); cbn [bind];
      [destruct (set_query_params qp); cbn [bind]; [| discriminate] |];
      intros H; injection H as <-; reflexivity.
Qed.

Lemma create_job_config_destination_witness :
  exists cfg,
    create_job_config (new_pipeline "testjob" (Some "testproject") (Some "testdataset"))
      false (Some "testtable") true true false PyNone = Ok cfg /\
    destination cfg = Some (tableref "testproject" "testdataset" "testtable").
Proof.
  pose proof (proj1 (create_job_config_destination
                       (new_pipeline "testjob" (Some "testproject") (Some "testdataset"))
                       false "testtable" true true false PyNone) eq_refl) as H.
  change (py_split_dot (resolve_table_spec_str
            (new_pipeline "testjob" (Some "testproject") (Some "testdataset")) "testtable"))
    with ["testproject"; "testdataset"; "testtable"] in H.
  cbv beta iota in H. destruct H as [H1 H2].
  destruct (H2 eq_refl) as [cfg Hc].
  exists cfg. split; [exact Hc | exact (H1 cfg Hc)].
Defined.

(** C6 (counterexample): the empty string does not begin with [gs://] but
    is not attached, and on a pipeline without defaults the table spec
    ["testtable"] is not resolved to a full identifier: the build raises
    [IndexError]. *)
Lemma create_job_config_destination_not_attached :
  py_startswith "" "gs://" = false /\
  (exists cfg,
     create_job_config (new_pipeline "testjob" (Some "testproject") (Some "testdataset"))
       false (Some "") true true false PyNone = Ok cfg /\ destination cfg = None) /\
  py_startswith "testtable" "gs://" = false /\
  create_job_config (new_pipeline "testjob" None None)
    false (Some "testtable") true true false PyNone = Err IndexError.
Proof. repeat split. eexists. split; reflexivity. Qed.

(** ** Invalid query parameters *)

Lemma set_query_params_invalid (qp : pyval) :
  py_truthy qp = true -> validate_query_params qp = false ->
  set_query_params qp = Err ValueError.
Proof.
  intros Ht Hv. unfold set_query_params. rewrite Ht, Hv. reflexivity.
Qed.

Lemma create_job_config_invalid_params (self : BQPipeline) batch dest create
    overwrite append (qp : pyval) cfg :
  py_truthy qp = true -> validate_query_params qp = false ->
  create_job_config self batch dest create overwrite append qp <> Ok cfg.
Proof.
  intros Ht Hv. unfold create_job_config. cbv beta zeta.
  destruct (match dest with
            | Some d => _
            | None => Ok None
            end); cbn [bind]; [| discriminate].
  rewrite Ht, (set_query_params_invalid qp Ht Hv). discriminate.
Qed.

Lemma get_client_events (client_project : string) (self : BQPipeline) :
  forall ev, In ev (snd (get_client client_project self)) ->
  ev = EvClientCreated client_project.
Proof.
  unfold get_client. destruct (bq self); simpl; [tauto |].
  intros ev [<- | []]. reflexivity.
Qed.

(** C8 (amended): a non-empty (truthy) top-level parameter collection
    that fails validation makes [create_job_config] raise [ValueError]
    (without a destination; with any destination it never succeeds), and
    [run_query] then raises before the query job is submitted. An empty
    top-level list or mapping is treated as no parameters and raises
    nothing. *)
Theorem create_job_config_param_errors :
  (forall qp : pyval, py_truthy qp = true -> validate_query_params qp = false ->
   (forall self batch create overwrite append,
      create_job_config self batch None create overwrite append qp = Err ValueError) /\
   (forall self batch dest create overwrite append cfg,
      create_job_config self batch dest create overwrite append qp <> Ok cfg) /\
   (forall read_sql render client_project self path dest batch create overwrite append,
      match run_query read_sql render client_project self (QDTuple3 path dest qp)
              batch create overwrite append with
      | (r, _, evs) =>
          (forall cfg, r <> Ok cfg) /\ (forall q cfg, ~ In (EvQuerySubmitted q cfg) evs)
      end)) /\
  (forall qp : pyval, py_truthy qp = false ->
   forall self batch create overwrite append,
   exists cfg, create_job_config self batch None create overwrite append qp = Ok cfg /\
               query_parameters cfg = None).
Proof.
  split.
  - intros qp Ht Hv. split; [| split].
    + intros. unfold create_job_config. cbn [bind].
      rewrite Ht, (set_query_params_invalid qp Ht Hv). reflexivity.
    + intros. apply create_job_config_invalid_params; assumption.
    + intros read_sql render client_project self path dest batch create overwrite append.
      unfold run_query, get_query_details.
      destruct dest as [d |]; [| split; [discriminate | intros q cfg []]].
      cbv beta zeta.
      destruct (read_sql path) as [template_str | e];
        [| split; [discriminate | intros q cfg []]].
      pose proof (get_client_events client_project self) as Hev.
      destruct (get_client client_project self) as [self' evs].
      simpl in Hev.
      destruct (create_job_config self' batch _ create overwrite append qp) as [cfg |] eqn:E.
      * exfalso. exact (create_job_config_invalid_params _ _ _ _ _ _ _ _ Ht Hv E).
      * split; [discriminate |]. intros q cfg Hin. specialize (Hev _ Hin). discriminate.
  - intros qp Ht self batch create overwrite append.
    unfold create_job_config. cbn [bind]. rewrite Ht.
    eexists. split; reflexivity.
Qed.

Lemma create_job_config_param_errors_witness :
  create_job_config (new_pipeline "testjob" (Some "testproject") (Some "testdataset"))
    false None true true false (PyList [PyInt 1; PyList [PyInt 1; PyStr "two"]])
  = Err ValueError.
Proof.
  apply (proj1 (proj1 create_job_config_param_errors
                  (PyList [PyInt 1; PyList [PyInt 1; PyStr "two"]])
                  eq_refl ltac:(vm_compute; reflexivity))).
Defined.

(** The validators reject the malformed collections the spec lists. *)
Lemma validate_parameter_rejects :
  validate_parameter (PyList []) = false /\
  validate_parameter (PyDict []) = false /\
  validate_parameter (PyList [PyInt 1; PyStr "two"]) = false /\
  validate_parameter (PyDict [(PyInt 1, PyInt 1)]) = false /\
  validate_query_params (PyDict [(PyInt 1, PyInt 1)]) = false /\
  validate_query_params (PyList [PyInt 1; PyList [PyInt 1; PyStr "two"]]) = false /\
  validate_query_params (PyDict [(PyStr "1", PyDict [])]) = false /\
  validate_query_params (PyList [PyInt 1; PyStr "two"]) = true.
Proof. vm_compute. repeat split. Qed.

(** C8 (counterexample): an empty mapping, or an empty list, given as the
    top-level parameter collection raises no error. *)
Lemma create_job_config_empty_params_accepted :
  (exists cfg,
     create_job_config (new_pipeline "testjob" (Some "testproject") (Some "testdataset"))
       false None true true false (PyDict []) = Ok cfg) /\
  (exists cfg,
     create_job_config (new_pipeline "testjob" (Some "testproject") (Some "testdataset"))
       false None true true false (PyList []) = Ok cfg).
Proof. split; eexists; reflexivity. Qed.

(** ** Unresolved identifiers *)

Lemma py_split_dot_nonempty (s : string) : py_split_dot s <> [].
Proof.
  destruct s as [| c rest]; simpl; [discriminate |].
  destruct (Ascii.eqb c "."); [discriminate |].
  destruct (py_split_dot rest); discriminate.
Qed.

Lemma create_job_config_short_dest (self : BQPipeline) batch (d : string)
    create overwrite append qp :
  dest_is_table d = true ->
  (List.length (py_split_dot (resolve_table_spec_str self d)) < 3)%nat ->
  create_job_config self batch (Some d) create overwrite append qp = Err IndexError.
Proof.
  unfold create_job_config, dest_is_table. cbv beta iota zeta. intros Hd Hn.
  rewrite Hd. unfold to_tableref.
  destruct (py_split_dot (resolve_table_spec_str self d)) as [| p0 [| p1 [| p2 rest]]];
    simpl in Hn; try reflexivity; lia.
Qed.

(** C9 (amended): [resolve_table_spec] is total and returns a spec that
    its defaults cannot complete unchanged; but when such a spec has fewer
    than three segments and is the (non-[gs://]) destination of
    [create_job_config], [to_tableref] raises [IndexError] locally. *)
Theorem unresolved_table_spec (self : BQPipeline) :
  (forall s, left_unresolved self s -> resolve_table_spec self (ArgStr s) = ArgStr s) /\
  (forall batch d create overwrite append qp,
     dest_is_table d = true -> left_unresolved self d ->
     (List.length (py_split_dot d) < 3)%nat ->
     create_job_config self batch (Some d) create overwrite append qp = Err IndexError).
Proof.
  assert (Hres : forall s, left_unresolved self s -> resolve_table_spec_str self s = s).
  { intros s. unfold left_unresolved, resolve_table_spec_str.
    pose proof (py_split_dot_nonempty s) as Hne.
    destruct (py_split_dot s) as [| p0 [| p1 [| p2 rest]]]; [congruence | | | ];
      simpl; intros H.
    - destruct H as [H | [[H _] | [_ [-> | ->]]]]; try lia; try reflexivity.
      destruct (default_project self); reflexivity.
    - destruct H as [H | [[_ ->] | [H _]]]; try lia; try reflexivity.
    - destruct (default_project self), (default_dataset self); reflexivity. }
  split.
  - intros s H. unfold resolve_table_spec. rewrite (Hres s H). reflexivity.
  - intros batch d create overwrite append qp Hd H Hn.
    apply create_job_config_short_dest; [exact Hd |].
    rewrite (Hres d H). exact Hn.
Qed.

Lemma unresolved_table_spec_witness :
  resolve_table_spec (new_pipeline "testjob" None None) (ArgStr "testtable") =
    ArgStr "testtable" /\
  create_job_config (new_pipeline "testjob" (Some "testproject") None)
    false (Some "testtable") true true false PyNone = Err IndexError.
Proof.
  split.
  - apply (proj1 (unresolved_table_spec (new_pipeline "testjob" None None))).
    unfold left_unresolved. simpl. right. right. split; [reflexivity | left; reflexivity].
  - apply (proj2 (unresolved_table_spec (new_pipeline "testjob" (Some "testproject") None))).
    + reflexivity.
    + unfold left_unresolved. simpl. right. right.
      split; [reflexivity | right; reflexivity].
    + simpl. lia.
Defined.

(** C9 (counterexample): on a pipeline without defaults, ["testtable"] is
    left unchanged by resolution, yet using it as a destination raises
    [IndexError] locally; a 4-segment spec is not passed through either:
    its fourth segment is dropped. *)
Lemma unresolved_destination_raises :
  resolve_table_spec (new_pipeline "testjob" None None) (ArgStr "testtable") =
    ArgStr "testtable" /\
  create_job_config (new_pipeline "testjob" None None)
    false (Some "testtable") true true false PyNone = Err IndexError /\
  (exists cfg,
     create_job_config (new_pipeline "testjob" None None)
       false (Some "a.b.c.d") true true false PyNone = Ok cfg /\
     destination cfg = Some (tableref "a" "b" "c")).
Proof. repeat split. eexists. split; reflexivity. Qed.

(** * Further properties of the pipeline *)

Lemma py_split_dot_app (a b : string) :
  py_split_dot (a ++ "." ++ b) = (py_split_dot a ++ py_split_dot b)%list.
Proof.
  induction a as [| c a IH]; [reflexivity |].
  simpl in *. rewrite IH.
  destruct (Ascii.eqb c "."); [reflexivity |].
  destruct (py_split_dot a) eqn:E; [exfalso; exact (py_split_dot_nonempty a E) | reflexivity].
Qed.

Lemma py_split_dot_length (s : string) : 1 <= List.length (py_split_dot s).
Proof.
  destruct (py_split_dot s) eqn:E; [exfalso; exact (py_split_dot_nonempty s E) | simpl; lia].
Qed.

Lemma py_split_dot_single (s : string) :
  List.length (py_split_dot s) = 1 -> py_split_dot s = [s].
Proof.
  induction s as [| c s IH]; [reflexivity |].
  simpl. destruct (Ascii.eqb c "."); simpl.
  - pose proof (py_split_dot_length s). lia.
  - destruct (py_split_dot s) as [| p ps] eqn:E;
      [exfalso; exact (py_split_dot_nonempty s E) |].
    simpl. intros H. destruct ps; [| discriminate].
    specialize (IH eq_refl). injection IH as ->. reflexivity.
Qed.

Lemma resolve_table_spec_str_long (self : BQPipeline) (s : string) :
  3 <= List.length (py_split_dot s) -> resolve_table_spec_str self s = s.
Proof.
  unfold resolve_table_spec_str.
  destruct (List.length (py_split_dot s)) as [| [| [| n]]]; intros H; try lia.
  destruct (default_project self), (default_dataset self); reflexivity.
Qed.

Lemma resolve_table_spec_str_cases (self : BQPipeline) (s : string) :
  resolve_table_spec_str self s = s \/
  3 <= List.length (py_split_dot (resolve_table_spec_str self s)).
Proof.
  unfold resolve_table_spec_str.
  destruct (List.length (py_split_dot s)) as [| [| [| n]]] eqn:E;
    destruct (default_project self) as [dp |], (default_dataset self) as [dd |];
    auto; right; rewrite ?py_split_dot_app, ?List.length_app, ?E;
    try pose proof (py_split_dot_length dp); try pose proof (py_split_dot_length dd); lia.
Qed.

(** X1 ([BQPipeline.resolve_table_spec]): resolving a table spec twice
    gives the same result as resolving it once; a completed spec has at
    least three parts and is left alone. *)
Theorem resolve_table_spec_idempotent (self : BQPipeline) (dest : table_arg) :
  resolve_table_spec self (resolve_table_spec self dest) = resolve_table_spec self dest.
Proof.
  destruct dest as [r | | s]; simpl; [reflexivity | reflexivity |].
  f_equal. destruct (resolve_table_spec_str_cases self s) as [H | H].
  - rewrite H. exact H.
  - exact (resolve_table_spec_str_long self _ H).
Qed.

(** X2 ([BQPipeline.resolve_table_spec], [to_tableref]): with a default
    project [dp] without dots, [dataset.table] resolves to the table
    reference [(dp, dataset, table)], and with a default dataset [dd]
    without dots, [table] resolves to [(dp, dd, table)]. *)
Theorem resolve_table_spec_completes (self : BQPipeline) (dp : string) :
  default_project self = Some dp -> List.length (py_split_dot dp) = 1 ->
  (forall d t, List.length (py_split_dot d) = 1 -> List.length (py_split_dot t) = 1 ->
     to_tableref (resolve_table_spec_str self (d ++ "." ++ t)) = Ok (tableref dp d t)) /\
  (forall dd t, default_dataset self = Some dd -> List.length (py_split_dot dd) = 1 ->
     List.length (py_split_dot t) = 1 ->
     to_tableref (resolve_table_spec_str self t) = Ok (tableref dp dd t)).
Proof.
  intros Hdp Hp. split.
  - intros d t Hd Ht. unfold resolve_table_spec_str.
    rewrite py_split_dot_app, List.length_app, Hd, Ht, Hdp. cbn [Nat.add].
    unfold to_tableref.
    rewrite !py_split_dot_app, (py_split_dot_single dp Hp),
      (py_split_dot_single d Hd), (py_split_dot_single t Ht).
    reflexivity.
  - intros dd t Hdd Hd Ht. unfold resolve_table_spec_str.
    rewrite Ht, Hdp, Hdd. unfold to_tableref.
    rewrite !py_split_dot_app, (py_split_dot_single dp Hp),
      (py_split_dot_single dd Hd), (py_split_dot_single t Ht).
    reflexivity.
Qed.

(** X3 ([to_tableref]): for parts without dots, [to_tableref] inverts
    [project.dataset.table], and it ignores any parts after the third. *)
Theorem to_tableref_round_trip (p d t : string) :
  List.length (py_split_dot p) = 1 -> List.length (py_split_dot d) = 1 ->
  List.length (py_split_dot t) = 1 ->
  to_tableref (p ++ "." ++ d ++ "." ++ t) = Ok (tableref p d t) /\
  (forall extra, to_tableref ((p ++ "." ++ d ++ "." ++ t) ++ "." ++ extra) = Ok (tableref p d t)).
Proof.
  intros Hp Hd Ht. unfold to_tableref. split; [| intros extra];
    rewrite !py_split_dot_app, (py_split_dot_single p Hp),
      (py_split_dot_single d Hd), (py_split_dot_single t Ht); reflexivity.
Qed.

(** X4 ([BQPipeline.resolve_dataset_spec]): resolution is idempotent, and
    with a default project every dataset spec comes out with at least two
    parts. *)
Theorem resolve_dataset_spec_qualifies (self : BQPipeline) (dataset : option string) :
  resolve_dataset_spec self (resolve_dataset_spec self dataset) = resolve_dataset_spec self dataset /\
  (forall dp d, default_project self = Some dp ->
     exists r, resolve_dataset_spec self (Some d) = Some r /\ 2 <= List.length (py_split_dot r)).
Proof.
  split.
  - destruct dataset as [d |]; [| reflexivity]. unfold resolve_dataset_spec.
    destruct (List.length (py_split_dot d)) as [| [| n]] eqn:E;
      destruct (default_project self) as [dp |] eqn:Hdp; rewrite ?E, ?Hdp; try reflexivity.
    rewrite py_split_dot_app, List.length_app, E.
    pose proof (py_split_dot_length dp).
    destruct (List.length (py_split_dot dp) + 1) as [| [| m]] eqn:F; [lia | lia | reflexivity].
  - intros dp d Hdp. unfold resolve_dataset_spec. rewrite Hdp.
    pose proof (py_split_dot_length d) as Hd.
    destruct (List.length (py_split_dot d)) as [| [| n]] eqn:E; [lia | |].
    + eexists; split; [reflexivity |].
      rewrite py_split_dot_app, List.length_app, E.
      pose proof (py_split_dot_length dp). lia.
    + eexists; split; [reflexivity |]. rewrite E. lia.
Qed.

Lemma get_client_created (cp : string) (self : BQPipeline) :
  bq (fst (get_client cp self)) <> None.
Proof. unfold get_client. destruct (bq self) eqn:E; simpl; [rewrite E |]; discriminate. Qed.

Lemma get_client_existing (cp : string) (self : BQPipeline) :
  bq self <> None -> get_client cp self = (self, []).
Proof. unfold get_client. destruct (bq self); [reflexivity | contradiction]. Qed.

Lemma get_client_fresh (cp : string) (self : BQPipeline) :
  bq self = None ->
  snd (get_client cp self) = [EvClientCreated cp] /\
  query_project (fst (get_client cp self)) = Some cp /\
  default_project (fst (get_client cp self)) =
    Some (match default_project self with Some dp => dp | None => cp end).
Proof.
  intros H. unfold get_client. rewrite H. simpl.
  destruct (default_project self); auto.
Qed.

(** X5 ([BQPipeline.get_client]): the client is created once; a second
    call makes no call to the service and changes nothing. The first call
    on a pipeline without client sets the query project to the client's
    project and the default project to the client's one when it was unset;
    a default project already set is never replaced. *)
Theorem get_client_idempotent (cp : string) (self : BQPipeline) :
  get_client cp (fst (get_client cp self)) = (fst (get_client cp self), []) /\
  (bq self = None ->
     snd (get_client cp self) = [EvClientCreated cp] /\
     query_project (fst (get_client cp self)) = Some cp /\
     default_project (fst (get_client cp self)) =
       Some (match default_project self with Some dp => dp | None => cp end)) /\
  (forall dp, default_project self = Some dp ->
     default_project (fst (get_client cp self)) = Some dp).
Proof.
  split; [| split].
  - apply get_client_existing, get_client_created.
  - apply get_client_fresh.
  - intros dp H. unfold get_client. destruct (bq self); simpl; [exact H |].
    rewrite H. reflexivity.
Qed.

Lemma resolve_table_spec_str_no_project (self : BQPipeline) (s : string) :
  default_project self = None -> resolve_table_spec_str self s = s.
Proof.
  intros H. unfold resolve_table_spec_str. rewrite H.
  destruct (List.length (py_split_dot s)) as [| [| [| n]]]; reflexivity.
Qed.

(** X6 ([BQPipeline.run_query], [get_query_details], [create_job_config]):
    on a pipeline without default project, a successful [run_query] with a
    table destination resolves the destination against the pipeline after
    [get_client], that is with the project inferred from the client, and
    submits it as the configuration's destination. *)
Theorem run_query_destination_client_project
    (read_sql : string -> result string) (render : string -> string) (cp : string)
    (self : BQPipeline) (path d : string) (qp : pyval)
    (batch create overwrite append : bool) (cfg : QueryJobConfig)
    (self' : BQPipeline) (evs : list event) :
  default_project self = None ->
  run_query read_sql render cp self (QDTuple3 path (Some d) qp) batch create overwrite append
    = (Ok cfg, self', evs) ->
  self' = fst (get_client cp self) /\
  (dest_is_table d = true ->
     exists r, to_tableref (resolve_table_spec_str self' d) = Ok r /\ destination cfg = Some r).
Proof.
  intros Hdp. unfold run_query, get_query_details.
  destruct (py_startswith d "gs://") eqn:Hgs; simpl.
  - destruct (read_sql path) as [t |]; [| intros H; discriminate H].
    destruct (get_client cp self) as [s1 e1] eqn:Hgc.
    destruct (create_job_config s1 batch (Some d) create overwrite append qp) as [c |] eqn:Hc;
      [| intros H; discriminate H].
    intros H; injection H as <- <- <-. split; [reflexivity |].
    unfold dest_is_table. rewrite Hgs, andb_false_r. discriminate.
  - rewrite (resolve_table_spec_str_no_project self d Hdp).
    destruct (read_sql path) as [t |]; [| intros H; discriminate H].
    destruct (get_client cp self) as [s1 e1] eqn:Hgc.
    destruct (create_job_config s1 batch (Some d) create overwrite append qp) as [c |] eqn:Hc;
      [| intros H; discriminate H].
    intros H; injection H as <- <- <-. split; [reflexivity |].
    intros Hd. unfold dest_is_table in Hd. rewrite Hgs in Hd.
    unfold create_job_config in Hc. rewrite Hgs in Hc. rewrite andb_true_r in Hd.
    rewrite Hd in Hc. simpl in Hc.
    destruct (to_tableref (resolve_table_spec_str s1 d)) as [r |]; [| discriminate Hc].
    cbn [bind] in Hc.
    destruct (if py_truthy qp then _ else _) as [q |]; [| discriminate Hc].
    injection Hc as <-. exists r. split; reflexivity.
Qed.

Lemma nodup_const (t : pytype) (m : list pytype) :
  m <> [] -> Forall (fun u => u = t) m -> nodup pytype_eq_dec m = [t].
Proof.
  induction m as [| a m IH]; intros Hne Hall; [contradiction |].
  inversion Hall as [| ? ? Ha Hm]; subst a.
  simpl. destruct m as [| b m'].
  - reflexivity.
  - destruct (in_dec pytype_eq_dec t (b :: m')) as [_ | Hn].
    + apply IH; [discriminate | exact Hm].
    + exfalso. apply Hn. inversion Hm; subst. left; reflexivity.
Qed.

Lemma validate_parameter_list_inv (l : list pyval) :
  validate_parameter (PyList l) = true ->
  exists x rest, l = x :: rest /\ is_scalar_type (type_of x) = true /\
    Forall (fun y => type_of y = type_of x) rest.
Proof.
  simpl. unfold type_set.
  intros H. apply andb_true_iff in H as [Hlen Hsc].
  apply Nat.eqb_eq in Hlen.
  destruct l as [| x rest]; [discriminate Hlen |].
  destruct (nodup pytype_eq_dec (map type_of (x :: rest))) as [| t [| t' ts]] eqn:E;
    try discriminate Hlen.
  assert (Hin : forall y, In y (x :: rest) -> type_of y = t).
  { intros y Hy. assert (Hm : In (type_of y) (nodup pytype_eq_dec (map type_of (x :: rest)))).
    { apply nodup_In, in_map, Hy. }
    rewrite E in Hm. destruct Hm as [Hm | []]. symmetry; exact Hm. }
  exists x, rest. split; [reflexivity |]. split.
  + rewrite (Hin x (or_introl eq_refl)). simpl in Hsc. rewrite andb_true_r in Hsc. exact Hsc.
  + apply Forall_forall. intros y Hy.
    rewrite (Hin y (or_intror Hy)), (Hin x (or_introl eq_refl)). reflexivity.
Qed.

(** X7 ([BQPipeline.validate_parameter]): a list is a valid parameter
    exactly when it is non-empty, its first element has a BigQuery scalar
    type and all other elements have the same Python type. *)
Theorem validate_parameter_list (l : list pyval) :
  validate_parameter (PyList l) = true <->
  exists x rest, l = x :: rest /\ is_scalar_type (type_of x) = true /\
    Forall (fun y => type_of y = type_of x) rest.
Proof.
  split; [apply validate_parameter_list_inv |].
  intros (x & rest & -> & Hsc & Hall). simpl. unfold type_set.
  rewrite (nodup_const (type_of x)).
  - simpl. rewrite Hsc. reflexivity.
  - discriminate.
  - constructor; [reflexivity |]. apply Forall_map. exact Hall.
Qed.

Lemma pyval_dict_ind (P : pyval -> Prop)
    (Hdict : forall items, Forall (fun kv => P (snd kv)) items -> P (PyDict items))
    (Hother : forall v, match v with PyDict _ => True | _ => P v end) :
  forall v, P v.
Proof.
  fix IH 1. intros v. destruct v as [| | | | | | | | items | |];
    try (match goal with |- P ?v => exact (Hother v) end).
  apply Hdict.
  exact ((fix go (its : list (pyval * pyval)) : Forall (fun kv => P (snd kv)) its :=
            match its with
            | [] => Forall_nil _
            | (k, v) :: rest => Forall_cons (k, v) (IH v) (go rest)
            end) items).
Qed.

Lemma validate_list_floats (x : pyval) (rest : list pyval) :
  is_float x = true -> Forall (fun y => type_of y = type_of x) rest ->
  forallb is_number (x :: rest) = true.
Proof.
  intros Hx Hall. destruct x; try discriminate Hx. simpl.
  induction Hall as [| y rest Hy _ IH]; [reflexivity |].
  destruct y; try discriminate Hy. exact IH.
Qed.

Lemma validate_parameter_typed (v : pyval) :
  forall key, validate_parameter v = true ->
  exists p, set_parameter key v = Ok (Some p) /\ param_name p = key.
Proof.
  revert v.
  refine (pyval_dict_ind (fun v => forall key, validate_parameter v = true ->
    exists p, set_parameter key v = Ok (Some p) /\ param_name p = key) _ _).
  - intros items IH key H.
    destruct items as [| kv rest]; [discriminate H |].
    apply andb_prop in H as [_ Hv].
    assert (Hgo : forall its : list (pyval * pyval),
      Forall (fun kv => forall key, validate_parameter (snd kv) = true ->
        exists p, set_parameter key (snd kv) = Ok (Some p) /\ param_name p = key) its ->
      (fix go (its : list (pyval * pyval)) : bool :=
         match its with
         | [] => true
         | (_, v) :: rest => validate_parameter v && go rest
         end) its = true ->
      exists subs,
      (fix go (its : list (pyval * pyval)) : result (list (option param)) :=
         match its with
         | [] => Ok []
         | (k, v) :: rest =>
             p <- set_parameter k v ;; ps <- go rest ;; Ok (p :: ps)
         end) its = Ok subs /\ existsb is_none_param subs = false).
    { induction its as [| [k v] its IHits]; intros Hall Hval;
        [exists []; split; reflexivity |].
      inversion Hall as [| ? ? Hkv Hrest]; subst.
      apply andb_prop in Hval as [Hv1 Hv2].
      destruct (Hkv k Hv1) as [p [Hp _]].
      destruct (IHits Hrest Hv2) as [subs [Hs Hn]].
      exists (Some p :: subs). simpl in Hp |- *. rewrite Hp. simpl. rewrite Hs.
      split; [reflexivity | exact Hn]. }
    destruct (Hgo (kv :: rest) IH Hv) as [subs [Hs Hn]].
    exists (StructQueryParameter key subs). split; [| reflexivity].
    refine (eq_trans (f_equal (fun r => bind r (fun subs =>
      if existsb is_none_param subs then Err AttributeError
      else Ok (Some (StructQueryParameter key subs)))) Hs) _).
    cbn [bind]. rewrite Hn. reflexivity.
  - intros v. destruct v as [s | n | b | bs | t | t | f | l | items | l |]; try exact I;
      intros key H;
      try (eexists; split; [reflexivity | reflexivity]).
    + (* float *)
      cbn [set_parameter]. rewrite (out_of_bounds_spec (PyFloat f) eq_refl). cbn [bind].
      destruct (outside_bounds (PyFloat f)); eexists; split; reflexivity.
    + (* list *)
      apply validate_parameter_list_inv in H as (x & rest & -> & Hsc & Hall).
      cbn [set_parameter]. destruct (is_float x) eqn:Hf; cbn [negb].
      * rewrite (any_out_of_bounds_spec (x :: rest) (validate_list_floats x rest Hf Hall)).
        cbn [bind]. destruct (existsb outside_bounds (x :: rest)); eexists; split; reflexivity.
      * eexists; split; reflexivity.
    + discriminate H.
    + discriminate H.
Qed.

Lemma keys_are_str_nonempty (items : list (pyval * pyval)) :
  keys_are_str items = true -> items <> [].
Proof. destruct items; [discriminate | intros _; discriminate]. Qed.

(** X8 ([BQPipeline.set_query_params], [set_parameter],
    [validate_query_params]): parameters that pass validation are always
    converted without error and without [None] entries; positional
    parameters get the name [None] and named ones get their keys. *)
Theorem set_query_params_validated :
  (forall l, l <> [] -> validate_query_params (PyList l) = true ->
     exists ps, set_query_params (PyList l) = Ok (Some (map Some ps)) /\
                map param_name ps = map (fun _ => PyNone) l) /\
  (forall items, validate_query_params (PyDict items) = true ->
     exists ps, set_query_params (PyDict items) = Ok (Some (map Some ps)) /\
                map param_name ps = map fst items).
Proof.
  split.
  - intros l Hne Hv. unfold set_query_params. rewrite Hv.
    destruct l as [| x0 l0]; [contradiction |]. cbn [py_truthy negb List.length Nat.eqb].
    clear Hne. change (forallb validate_parameter (x0 :: l0) = true) in Hv.
    revert Hv. generalize (x0 :: l0) as l. clear x0 l0.
    induction l as [| x l IH]; intros Hv; [exists []; split; reflexivity |].
    apply andb_prop in Hv as [Hx Hl].
    destruct (validate_parameter_typed x PyNone Hx) as [p [Hp Hn]].
    destruct (IH Hl) as [ps [Hps Hns]].
    exists (p :: ps). cbn [map_result]. rewrite Hp. cbn [bind].
    destruct (map_result (set_parameter PyNone) l) as [qs |]; [| discriminate Hps].
    cbn [bind] in Hps |- *. injection Hps as Hq. rewrite Hq.
    split; [reflexivity |]. simpl. rewrite Hn, Hns. reflexivity.
  - intros items Hv. unfold set_query_params. rewrite Hv.
    pose proof Hv as Hk.
    change (keys_are_str items && forallb (fun kv => validate_parameter (snd kv)) items = true) in Hk.
    apply andb_prop in Hk as [Hk Hall].
    destruct items as [| kv0 items0]; [destruct (keys_are_str_nonempty [] Hk eq_refl) |].
    cbn [py_truthy negb List.length Nat.eqb].
    clear Hv Hk. revert Hall. generalize (kv0 :: items0) as items. clear kv0 items0.
    induction items as [| [k v] items IH]; intros Hv; [exists []; split; reflexivity |].
    apply andb_prop in Hv as [Hx Hl].
    destruct (validate_parameter_typed v k Hx) as [p [Hp Hn]].
    destruct (IH Hl) as [ps [Hps Hns]].
    exists (p :: ps). cbn [map_result fst snd]. rewrite Hp. cbn [bind].
    destruct (map_result (fun kv => set_parameter (fst kv) (snd kv)) items) as [qs |];
      [| discriminate Hps].
    cbn [bind] in Hps |- *. injection Hps as Hq. rewrite Hq.
    split; [reflexivity |]. simpl. rewrite Hn, Hns. reflexivity.
Qed.

Lemma get_client_calls (cp : string) (self : BQPipeline) :
  snd (get_client cp self) = match bq self with Some _ => [] | None => [EvClientCreated cp] end.
Proof. unfold get_client. destruct (bq self); reflexivity. Qed.

Lemma run_query_calls (read_sql : string -> result string) (render : string -> string)
    (cp : string) (self : BQPipeline) (qd : query_details) (batch create overwrite append : bool)
    (r : result QueryJobConfig) (self' : BQPipeline) (evs : list event) :
  run_query read_sql render cp self qd batch create overwrite append = (r, self', evs) ->
  List.length (filter is_client_created evs) <= match bq self with Some _ => 0 | None => 1 end /\
  (forall cfg, r = Ok cfg ->
     bq self' <> None /\ List.length (filter is_query_submitted evs) = 1) /\
  (forall e, r = Err e -> filter is_query_submitted evs = []).
Proof.
  unfold run_query.
  destruct (get_query_details self qd) as [[[[sp dst] qp] g] | e].
  2: { intros H; injection H as <- <- <-. simpl.
       split; [destruct (bq self); lia | split; [intros cfg H; discriminate H | reflexivity]]. }
  destruct (read_sql sp) as [t | e].
  2: { intros H; injection H as <- <- <-. simpl.
       split; [destruct (bq self); lia | split; [intros cfg H; discriminate H | reflexivity]]. }
  pose proof (get_client_calls cp self) as He.
  pose proof (get_client_created cp self) as Hb.
  destruct (get_client cp self) as [s1 e1]. simpl in He, Hb. subst e1.
  destruct (create_job_config s1 batch dst create overwrite append qp) as [cfg | e];
    intros H; injection H as <- <- <-.
  - rewrite !filter_app, !List.length_app.
    destruct (bq self); simpl; split; try lia; split; auto; intros e H; discriminate H.
  - destruct (bq self); simpl; split; try lia; split; auto; intros c H; discriminate H.
Qed.

Lemma filter_client_created_calls (evs : list event) :
  List.length (filter call_is_client_created (map Call evs)) =
  List.length (filter is_client_created evs).
Proof.
  induction evs as [| e evs IH]; [reflexivity |].
  simpl. destruct (is_client_created e); simpl; rewrite IH; reflexivity.
Qed.

Lemma filter_query_submitted_calls (evs : list event) :
  List.length (filter call_is_query_submitted (map Call evs)) =
  List.length (filter is_query_submitted evs).
Proof.
  induction evs as [| e evs IH]; [reflexivity |].
  simpl. destruct (is_query_submitted e); simpl; rewrite IH; reflexivity.
Qed.

Lemma run_query_full_calls (read_sql : string -> result string) (render : string -> string)
    (cp : string) (wait_ok : QueryJobConfig -> bool)
    (export_ok : bool -> string -> QueryJobConfig -> bool)
    (self : BQPipeline) (qd : query_details) (batch wait create overwrite append : bool)
    (fmt : string) (r : outcome QueryJobConfig) (self' : BQPipeline) (cs : list call) :
  run_query_full read_sql render cp wait_ok export_ok self qd batch wait create overwrite append fmt
    = (r, self', cs) ->
  List.length (filter call_is_client_created cs) <= match bq self with Some _ => 0 | None => 1 end /\
  List.length (filter call_is_query_submitted cs) <= 1 /\
  (forall job, r = Done job ->
     bq self' <> None /\ List.length (filter call_is_query_submitted cs) = 1) /\
  (forall e, r = Failed (Raised e) -> List.length (filter call_is_query_submitted cs) = 0).
Proof.
  unfold run_query_full.
  destruct (run_query read_sql render cp self qd batch create overwrite append)
    as [[r0 s0] e0] eqn:H.
  destruct (run_query_calls _ _ _ _ _ _ _ _ _ _ _ _ H) as [C [Ok0 Err0]].
  destruct r0 as [job | e].
  - destruct (Ok0 job eq_refl) as [Hb S].
    assert (Hc : forall extra, List.length (filter call_is_client_created (map Call e0 ++ extra)) =
              List.length (filter is_client_created e0) + List.length (filter call_is_client_created extra)).
    { intros extra. rewrite filter_app, List.length_app, filter_client_created_calls. reflexivity. }
    assert (Hs : forall extra, List.length (filter call_is_query_submitted (map Call e0 ++ extra)) =
              1 + List.length (filter call_is_query_submitted extra)).
    { intros extra. rewrite filter_app, List.length_app, filter_query_submitted_calls, S. reflexivity. }
    destruct wait, (wait_ok job), (qd_is_gcs_dest self qd), (export_format_of fmt) as [f |];
      cbn [andb negb];
      repeat match goal with |- context [export_ok ?w ?f ?j] => destruct (export_ok w f j) end;
      intros Heq; injection Heq as <- <- <-;
      rewrite <- ?app_assoc, ?Hc, ?Hs, ?filter_client_created_calls,
        ?filter_query_submitted_calls, ?S; simpl;
      (split; [lia | split; [lia | split; [intros j Hj; split; [exact Hb | lia]
                                         | intros e' He'; discriminate He']]]).
  - intros Heq; injection Heq as <- <- <-.
    rewrite filter_client_created_calls, filter_query_submitted_calls, (Err0 e eq_refl).
    simpl. split; [exact C | split; [lia | split; [intros j Hj; discriminate Hj | reflexivity]]].
Qed.


(** X10 ([BQPipeline.run_query], [get_query_details]): a call of
    [run_query] submits at most one query, and the exceptions of the
    pipeline's own code are all raised before the submission, so only a
    failure of the service can follow a submitted query. A tuple whose
    destination is [None] raises [AttributeError], and a failing [read_sql]
    its exception, before any call to a service and with the pipeline
    unchanged. Without waiting and without a [gs://] destination, nothing
    can fail after the submission. *)
Theorem run_query_failure (read_sql : string -> result string) (render : string -> string)
    (cp : string) (wait_ok : QueryJobConfig -> bool)
    (export_ok : bool -> string -> QueryJobConfig -> bool)
    (self : BQPipeline) (batch wait create overwrite append : bool) (fmt : string) :
  (forall qd r self' cs,
     run_query_full read_sql render cp wait_ok export_ok self qd
       batch wait create overwrite append fmt = (r, self', cs) ->
     List.length (filter call_is_query_submitted cs) <= 1 /\
     (forall e, r = Failed (Raised e) -> filter call_is_query_submitted cs = [])) /\
  (forall path qp,
     run_query_full read_sql render cp wait_ok export_ok self (QDTuple2 path None)
       batch wait create overwrite append fmt = (Failed (Raised AttributeError), self, []) /\
     run_query_full read_sql render cp wait_ok export_ok self (QDTuple3 path None qp)
       batch wait create overwrite append fmt = (Failed (Raised AttributeError), self, [])) /\
  (forall path e, read_sql path = Err e ->
     run_query_full read_sql render cp wait_ok export_ok self (QDPath path)
       batch wait create overwrite append fmt = (Failed (Raised e), self, [])) /\
  (forall qd job self' evs, wait = false -> qd_is_gcs_dest self qd = false ->
     run_query read_sql render cp self qd batch create overwrite append = (Ok job, self', evs) ->
     run_query_full read_sql render cp wait_ok export_ok self qd
       batch wait create overwrite append fmt = (Done job, self', map Call evs)).
Proof.
  split; [| split; [| split]].
  - intros qd r self' cs H.
    destruct (run_query_full_calls _ _ _ _ _ _ _ _ _ _ _ _ _ _ _ _ H) as [_ [S [_ E]]].
    split; [exact S |]. intros e He.
    specialize (E e He). destruct (filter call_is_query_submitted cs); [reflexivity | discriminate E].
  - intros path qp. split; reflexivity.
  - intros path e H. unfold run_query_full, run_query. simpl. rewrite H. reflexivity.
  - intros qd job self' evs -> Hg H. unfold run_query_full. rewrite H, Hg. reflexivity.
Qed.

Lemma resolve_table_spec_no_project (self : BQPipeline) (t : table_arg) :
  default_project self = None -> resolve_table_spec self t = t.
Proof.
  intros H. destruct t as [r | | s]; simpl; [reflexivity | reflexivity |].
  rewrite (resolve_table_spec_str_no_project self s H). reflexivity.
Qed.

(** X11 ([BQPipeline.copy_table], [create_copy_job_config]): on a fresh
    pipeline without default project, [copy_table] passes the source and
    destination unresolved, because it resolves them before [get_client]
    infers the project; a second call resolves them with the inferred
    project and creates no client. The copy never appends. *)
Theorem copy_table_resolves_before_client (cp : string) (self : BQPipeline)
    (src dest : table_arg) (overwrite : bool)
    (self1 : BQPipeline) (evs1 : list event) (s1 d1 : table_arg) (wd1 : WriteDisposition) :
  default_project self = None -> bq self = None ->
  copy_table cp self src dest overwrite = (self1, evs1, (s1, d1, wd1)) ->
  s1 = src /\ d1 = dest /\ evs1 = [EvClientCreated cp] /\
  default_project self1 = Some cp /\ wd1 <> WRITE_APPEND /\
  copy_table cp self1 src dest overwrite
    = (self1, [], (resolve_table_spec self1 src, resolve_table_spec self1 dest, wd1)).
Proof.
  intros Hdp Hbq. unfold copy_table.
  rewrite (resolve_table_spec_no_project self src Hdp),
    (resolve_table_spec_no_project self dest Hdp).
  pose proof (get_client_calls cp self) as He.
  pose proof (get_client_created cp self) as Hb.
  destruct (get_client_fresh cp self Hbq) as [_ [_ Hd]]. rewrite Hdp in Hd.
  rewrite Hbq in He.
  destruct (get_client cp self) as [s e]. simpl in He, Hb, Hd. subst e.
  intros H; injection H as <- <- <- <- <-.
  rewrite (get_client_existing cp s Hb).
  split; [reflexivity |]. split; [reflexivity |]. split; [reflexivity |].
  split; [exact Hd |]. split; [| reflexivity].
  unfold create_copy_job_config. destruct overwrite; discriminate.
Qed.

Lemma delete_tables_existing (cp : string) (self : BQPipeline) (tables : list table_arg) :
  bq self <> None ->
  delete_tables cp self tables = (self, [], map (resolve_table_spec self) tables).
Proof.
  intros Hb. induction tables as [| t rest IH]; [reflexivity |].
  simpl. unfold delete_table. rewrite (get_client_existing cp self Hb). simpl.
  rewrite IH. reflexivity.
Qed.

(** X12 ([BQPipeline.delete_tables], [delete_table]): on a fresh pipeline
    without default project, the first table is deleted under its spec as
    given, while the following ones are resolved with the project inferred
    from the client; the client is created once. *)
Theorem delete_tables_first_unresolved (cp : string) (self : BQPipeline)
    (t : table_arg) (rest : list table_arg)
    (self' : BQPipeline) (evs : list event) (ts : list table_arg) :
  default_project self = None -> bq self = None ->
  delete_tables cp self (t :: rest) = (self', evs, ts) ->
  evs = [EvClientCreated cp] /\ default_project self' = Some cp /\
  ts = t :: map (resolve_table_spec self') rest.
Proof.
  intros Hdp Hbq. simpl. unfold delete_table.
  rewrite (resolve_table_spec_no_project self t Hdp).
  pose proof (get_client_calls cp self) as He.
  pose proof (get_client_created cp self) as Hb.
  destruct (get_client_fresh cp self Hbq) as [_ [_ Hd]]. rewrite Hdp in Hd.
  rewrite Hbq in He.
  destruct (get_client cp self) as [s e]. simpl in He, Hb, Hd. subst e.
  rewrite (delete_tables_existing cp s rest Hb).
  intros H; injection H as <- <- <-.
  split; [reflexivity |]. split; [exact Hd | reflexivity].
Qed.

(** X13 ([BQPipeline.create_dataset]): [create_dataset] uses [self.bq]
    directly, so before [get_client] it raises [AttributeError]; after it,
    a one-part dataset spec is qualified with the default project, or with
    the client's project when none was set. *)
Theorem create_dataset_needs_client (cp : string) (self : BQPipeline) :
  bq self = None ->
  (forall dataset, create_dataset self dataset = Err AttributeError) /\
  (forall d, List.length (py_split_dot d) = 1 ->
     create_dataset (fst (get_client cp self)) (Some d)
       = Ok (Some ((match default_project self with Some dp => dp | None => cp end) ++ "." ++ d))).
Proof.
  intros Hbq. split.
  - intros dataset. unfold create_dataset. rewrite Hbq. reflexivity.
  - intros d Hd. unfold create_dataset, get_client. rewrite Hbq. simpl.
    unfold resolve_dataset_spec. simpl. rewrite Hd.
    destruct (default_project self); reflexivity.
Qed.

(** ** Witnesses of the properties above *)

Lemma resolve_table_spec_completes_witness :
  to_tableref (resolve_table_spec_str (new_pipeline "job" (Some "proj") (Some "ds")) "other.t")
    = Ok (tableref "proj" "other" "t") /\
  to_tableref (resolve_table_spec_str (new_pipeline "job" (Some "proj") (Some "ds")) "t")
    = Ok (tableref "proj" "ds" "t").
Proof.
  destruct (resolve_table_spec_completes (new_pipeline "job" (Some "proj") (Some "ds")) "proj"
              eq_refl eq_refl) as [H1 H2].
  split; [exact (H1 "other" "t" eq_refl eq_refl) | exact (H2 "ds" "t" eq_refl eq_refl eq_refl)].
Defined.

Lemma to_tableref_round_trip_witness :
  to_tableref "proj.ds.t" = Ok (tableref "proj" "ds" "t") /\
  to_tableref "proj.ds.t.x" = Ok (tableref "proj" "ds" "t").
Proof.
  destruct (to_tableref_round_trip "proj" "ds" "t" eq_refl eq_refl eq_refl) as [H1 H2].
  split; [exact H1 | exact (H2 "x")].
Defined.

Lemma resolve_dataset_spec_qualifies_witness :
  exists r, resolve_dataset_spec (new_pipeline "job" (Some "proj") None) (Some "ds") = Some r /\
            2 <= List.length (py_split_dot r).
Proof.
  exact (proj2 (resolve_dataset_spec_qualifies (new_pipeline "job" (Some "proj") None) None)
           "proj" "ds" eq_refl).
Defined.

Lemma get_client_idempotent_witness :
  default_project (fst (get_client "proj" (new_pipeline "job" None None))) = Some "proj" /\
  default_project (fst (get_client "proj" (new_pipeline "job" (Some "mine") None))) = Some "mine".
Proof.
  split.
  - exact (proj2 (proj2 (proj1 (proj2 (get_client_idempotent "proj" (new_pipeline "job" None None)))
             eq_refl))).
  - exact (proj2 (proj2 (get_client_idempotent "proj" (new_pipeline "job" (Some "mine") None)))
             "mine" eq_refl).
Defined.

Lemma run_query_destination_client_project_witness :
  match run_query (fun _ => Ok "SELECT 1") (fun s => s) "proj" (new_pipeline "job" None None)
          (QDTuple3 "q.sql" (Some "ds.t") PyNone) false true true false with
  | (Ok cfg, _, _) => destination cfg = Some (tableref "proj" "ds" "t")
  | _ => False
  end.
Proof.
  destruct (run_query (fun _ => Ok "SELECT 1") (fun s => s) "proj" (new_pipeline "job" None None)
              (QDTuple3 "q.sql" (Some "ds.t") PyNone) false true true false)
    as [[[cfg | e] s'] evs] eqn:H.
  - destruct (run_query_destination_client_project (fun _ => Ok "SELECT 1") (fun s => s) "proj"
              (new_pipeline "job" None None) "q.sql" "ds.t" PyNone false true true false
              cfg s' evs eq_refl H)
      as [Hs Hd].
    destruct (Hd eq_refl) as [r [Hr ->]]. subst s'.
    vm_compute in Hr. injection Hr as <-. reflexivity.
  - vm_compute in H. discriminate H.
Defined.

Lemma validate_parameter_list_witness :
  validate_parameter (PyList [PyInt 1; PyInt 2]) = true /\
  validate_parameter (PyList [PyInt 1; PyStr "a"]) = false.
Proof.
  split.
  - apply (proj2 (validate_parameter_list [PyInt 1; PyInt 2])).
    exists (PyInt 1), [PyInt 2]. split; [reflexivity |]. split; [reflexivity |].
    constructor; [reflexivity | constructor].
  - destruct (validate_parameter (PyList [PyInt 1; PyStr "a"])) eqn:H; [| reflexivity].
    apply (proj1 (validate_parameter_list [PyInt 1; PyStr "a"])) in H
      as (x & rest & Hl & _ & Hall).
    injection Hl as <- <-. inversion Hall as [| ? ? Ha]. discriminate Ha.
Defined.

Lemma set_query_params_validated_witness :
  exists ps,
    set_query_params (PyDict [(PyStr "a", PyInt 1); (PyStr "b", PyList [PyFloat 1.5; PyFloat 2.5])])
      = Ok (Some (map Some ps)) /\
    map param_name ps = [PyStr "a"; PyStr "b"].
Proof.
  exact (proj2 set_query_params_validated
           [(PyStr "a", PyInt 1); (PyStr "b", PyList [PyFloat 1.5; PyFloat 2.5])] eq_refl).
Defined.


Lemma run_query_failure_witness :
  run_query_full (fun _ => Err IndexError) (fun s => s) "proj" (fun _ => true) (fun _ _ _ => true)
    (new_pipeline "job" None None) (QDPath "missing.sql") false true true true false "CSV"
    = (Failed (Raised IndexError), new_pipeline "job" None None, []).
Proof.
  exact (proj1 (proj2 (proj2 (run_query_failure (fun _ => Err IndexError) (fun s => s) "proj"
                         (fun _ => true) (fun _ _ _ => true)
                         (new_pipeline "job" None None) false true true true false "CSV")))
           "missing.sql" IndexError eq_refl).
Defined.

Lemma copy_table_resolves_before_client_witness :
  exists self1 evs1 wd1,
    copy_table "proj" (new_pipeline "job" None None) (ArgStr "ds.a") (ArgStr "ds.b") true
      = (self1, evs1, (ArgStr "ds.a", ArgStr "ds.b", wd1)) /\
    copy_table "proj" self1 (ArgStr "ds.a") (ArgStr "ds.b") true
      = (self1, [], (ArgStr "proj.ds.a", ArgStr "proj.ds.b", wd1)).
Proof.
  destruct (copy_table "proj" (new_pipeline "job" None None) (ArgStr "ds.a") (ArgStr "ds.b") true)
    as [[self1 evs1] [[s1 d1] wd1]] eqn:H.
  destruct (copy_table_resolves_before_client "proj" (new_pipeline "job" None None)
              (ArgStr "ds.a") (ArgStr "ds.b") true self1 evs1 s1 d1 wd1 eq_refl eq_refl H)
    as (-> & -> & _ & _ & _ & H2).
  exists self1, evs1, wd1. split; [reflexivity |]. rewrite H2.
  vm_compute in H. injection H as <- _ _. reflexivity.
Defined.

Lemma delete_tables_first_unresolved_witness :
  exists self' evs,
    delete_tables "proj" (new_pipeline "job" None None) [ArgStr "ds.a"; ArgStr "ds.b"]
      = (self', evs, [ArgStr "ds.a"; ArgStr "proj.ds.b"]).
Proof.
  destruct (delete_tables "proj" (new_pipeline "job" None None) [ArgStr "ds.a"; ArgStr "ds.b"])
    as [[self' evs] ts] eqn:H.
  destruct (delete_tables_first_unresolved "proj" (new_pipeline "job" None None)
              (ArgStr "ds.a") [ArgStr "ds.b"] self' evs ts eq_refl eq_refl H) as (_ & _ & ->).
  exists self', evs.
  vm_compute in H. injection H as <- _ _. reflexivity.
Defined.

Lemma create_dataset_needs_client_witness :
  create_dataset (new_pipeline "job" None None) (Some "ds") = Err AttributeError /\
  create_dataset (fst (get_client "proj" (new_pipeline "job" None None))) (Some "ds")
    = Ok (Some "proj.ds").
Proof.
  destruct (create_dataset_needs_client "proj" (new_pipeline "job" None None) eq_refl) as [H1 H2].
  split; [exact (H1 (Some "ds")) | exact (H2 "ds" eq_refl)].
Defined.
